(** * Feature scoring path of the breast-cancer risk assessment tool

    A shallow embedding of the three functions of [app.py] that load the
    trained classifier and its metadata ([load_data]), score a feature
    vector ([predict_cancer_risk]) and check one value against its recorded
    range ([validate_input_range]).

    Python values are an inductive type, numbers are binary64 floats (the
    type the docstrings give to values and bounds; a Python int stands as
    the float of the same value), a dict keyed by feature names is a
    [gmap string], exceptions are values of an error type, and the effects
    of the code (files read, Streamlit calls, calls into the classifier)
    are threaded through an explicit world.

    The file also embeds the counter and the recommendations that the form
    of [display_risk_assessment] computes from its answers, and the page
    routing of the module body with its handler. *)

From Stdlib Require Import Floats ZArith Lia.
From stdpp Require Import base option list strings pretty gmap.

Set Warnings "-inexact-float,-register-all".
Set Default Proof Using "Type".

#[local] Open Scope string_scope.

(** ** Exceptions and results *)

(** An exception class, by the names of the classes of its [__mro__]: its
    own name first, then every class it derives from.  An [except C] clause
    catches the instances of the classes that have [C] among them. *)
Record ExcClass := mkClass { class_mro : list string }.

(** The classes the code raises or tells apart in its handlers. *)
Definition FileNotFoundError : ExcClass :=
  mkClass ["FileNotFoundError"; "OSError"; "Exception"; "BaseException"; "object"].
Definition UnpicklingError : ExcClass :=
  mkClass ["UnpicklingError"; "PickleError"; "Exception"; "BaseException"; "object"].
Definition ValueError : ExcClass :=
  mkClass ["ValueError"; "Exception"; "BaseException"; "object"].
Definition TypeError : ExcClass :=
  mkClass ["TypeError"; "Exception"; "BaseException"; "object"].
Definition IndexError : ExcClass :=
  mkClass ["IndexError"; "LookupError"; "Exception"; "BaseException"; "object"].

(** Some other class that derives from [Exception] directly. *)
Definition OtherError (name : string) : ExcClass :=
  mkClass [name; "Exception"; "BaseException"; "object"].

(** The classes that derive from [BaseException] and not from [Exception]. *)
Definition KeyboardInterrupt : ExcClass :=
  mkClass ["KeyboardInterrupt"; "BaseException"; "object"].
Definition SystemExit : ExcClass :=
  mkClass ["SystemExit"; "BaseException"; "object"].

(** An exception object: its class and [str(e)]. *)
Record PyExc := mkExc { exc_class : ExcClass; exc_str : string }.

(** [isinstance(e, cls)] *)
Definition isinstance_exc (e : PyExc) (cls : string) : bool :=
  existsb (String.eqb cls) (class_mro (exc_class e)).

Inductive Result (A : Type) :=
| Ok (a : A)
| Raise (e : PyExc).
Arguments Ok {A} a.
Arguments Raise {A} e.

#[global] Instance Result_ret : MRet Result := @Ok.
#[global] Instance Result_bind : MBind Result := λ A B f r,
  match r with
  | Ok a => f a
  | Raise e => Raise e
  end.

Definition is_ok {A} (r : Result A) : bool :=
  match r with Ok _ => true | Raise _ => false end.

(** ** Strings *)

(** A string is the UTF-8 encoding of a Python [str].  The bytes 10xxxxxx
    continue a character. *)
Definition is_continuation (c : Ascii.ascii) : bool :=
  match c with
  | Ascii.Ascii _ _ _ _ _ _ false true => true
  | _ => false
  end.

(** The characters of a string, one string per code point: what iterating
    a [str] yields. *)
Fixpoint code_points (s : string) : list string :=
  match s with
  | EmptyString => []
  | String c rest =>
      let others := code_points rest in
      match rest, others with
      | String c' _, first :: following =>
          if is_continuation c' then String c first :: following
          else String c EmptyString :: others
      | _, _ => String c EmptyString :: others
      end
  end.

(** ** Python values *)

Inductive PyClass :=
| RandomForestClassifier
| OtherClass (name : string).

(** What the code writes to the page: [st.error(msg)] and [st.info(msg)]. *)
Inductive StCall :=
| StError (msg : string)
| StInfo (msg : string).

Section Scoring.

(** The mutable state of the classifier object, whatever it is. *)
Variable EstState : Type.

(** Python objects, and among them the instances of estimator classes.  Of
    an estimator the model keeps the two capabilities the scorer uses and
    what iterating the object gives.  A call of [predict] or [predict_proba]
    receives the samples, one row per sample, and the object's state; it
    returns one entry per sample or raises, and leaves a state.  Iterating
    the object is impossible when its class defines no iteration ([None]),
    or raises (an unfitted forest has no [estimators_]), or yields objects
    (a fitted forest yields its trees). *)
Inductive PyObj :=
| ONone
| OFloat (x : float)
| OStr (s : string)
| OTuple (xs : list PyObj)
| OList (xs : list PyObj)
| ODict (d : gmap string PyObj)
| OInstance (cls : PyClass) (obj : Classifier)
with Classifier :=
| mkClassifier
    (predict : list (list float) → EstState → Result (list Z) * EstState)
    (predict_proba :
       list (list float) → EstState → Result (list (list float)) * EstState)
    (iteration : option (Result (list PyObj))).

Definition predict (model : Classifier)
    : list (list float) → EstState → Result (list Z) * EstState :=
  match model with mkClassifier f _ _ => f end.

Definition predict_proba (model : Classifier)
    : list (list float) → EstState → Result (list (list float)) * EstState :=
  match model with mkClassifier _ f _ => f end.

Definition iteration (model : Classifier) : option (Result (list PyObj)) :=
  match model with mkClassifier _ _ it => it end.

(** A file of the [model] directory: bytes on which [pickle.load] raises, or
    the pickle of an object. *)
Inductive Blob :=
| Corrupt (e : PyExc)
| Pickle (o : PyObj).

Record World := mkWorld {
  fs : gmap string Blob;
  page : list StCall;
  est : EstState
}.

(** ** Computations: a world in, a result or an exception and a world out *)

Definition Py (A : Type) : Type := World → Result A * World.

Definition ret {A} (a : A) : Py A := λ w, (Ok a, w).

Definition bind {A B} (c : Py A) (k : A → Py B) : Py B := λ w,
  match c w with
  | (Ok a, w') => k a w'
  | (Raise e, w') => (Raise e, w')
  end.

Definition raise {A} (e : PyExc) : Py A := λ w, (Raise e, w).

(** [try: body] followed by [except] clauses.  The clauses give the handler
    of the first clause that catches the exception, if one does; an
    exception that no clause catches goes on as it is. *)
Definition try_except {A} (body : Py A) (clauses : PyExc → option (Py A))
    : Py A := λ w,
  match body w with
  | (Ok a, w') => (Ok a, w')
  | (Raise e, w') =>
      match clauses e with
      | Some handler => handler w'
      | None => (Raise e, w')
      end
  end.

(** [except cls as e: handler e], followed by the clauses after it. *)
Definition except_ {A} (cls : string) (handler : PyExc → Py A)
    (others : PyExc → option (Py A)) : PyExc → option (Py A) := λ e,
  if isinstance_exc e cls then Some (handler e) else others e.

(** No clause is left. *)
Definition uncaught {A} : PyExc → option (Py A) := λ _, None.

Definition lift {A} (r : Result A) : Py A := λ w, (r, w).

Notation "'do' x <- c ; k" := (bind c (λ x, k))
  (at level 10, x pattern, c at level 100, k at level 200,
   format "'[v' 'do'  x  <-  c ; '/' k ']'").
Notation "c >> k" := (bind c (λ _, k)) (at level 60, right associativity).

(** The world after the given calls were written to the page. *)
Definition with_page (w : World) (calls : list StCall) : World :=
  mkWorld (fs w) (page w ++ calls) (est w).

Definition st_error (msg : string) : Py unit := λ w,
  (Ok (), with_page w [StError msg]).

Definition st_info (msg : string) : Py unit := λ w,
  (Ok (), with_page w [StInfo msg]).

(** [open(path, 'rb')]: a missing file raises [FileNotFoundError]. *)
Definition open_rb (path : string) : Py Blob := λ w,
  match fs w !! path with
  | Some b => (Ok b, w)
  | None =>
      (Raise (mkExc FileNotFoundError
                ("[Errno 2] No such file or directory: '" ++ path ++ "'")), w)
  end.

Definition pickle_load (f : Blob) : Py PyObj :=
  match f with
  | Corrupt e => raise e
  | Pickle o => ret o
  end.

(** A method call on the classifier object runs on its state. *)
Definition call {A} (m : EstState → Result A * EstState) : Py A := λ w,
  let '(r, s) := m (est w) in (r, mkWorld (fs w) (page w) s).

(** ** Built-ins *)

(** [isinstance(o, RandomForestClassifier)], on the class of the object. *)
Definition isinstance_forest (o : PyObj) : bool :=
  match o with
  | OInstance RandomForestClassifier _ => true
  | _ => false
  end.

Definition isinstance_list (o : PyObj) : bool :=
  match o with OList _ => true | _ => false end.

Definition isinstance_dict (o : PyObj) : bool :=
  match o with ODict _ => true | _ => false end.

(** Truth value of an object, as [not o] tests it.  The loader asks it of
    lists and dicts only: the [isinstance] test before it in the same [or]
    stops at every other object. *)
Definition truthy (o : PyObj) : bool :=
  match o with
  | ONone => false
  | OFloat x => negb (PrimFloat.eqb x 0)
  | OStr s => negb (String.eqb s "")
  | OTuple xs | OList xs => negb (Nat.eqb (length xs) 0)
  | ODict d => negb (Nat.eqb (size d) 0)
  | OInstance _ _ => true
  end.

Definition type_name (o : PyObj) : string :=
  match o with
  | ONone => "NoneType"
  | OFloat _ => "float"
  | OStr _ => "str"
  | OTuple _ => "tuple"
  | OList _ => "list"
  | ODict _ => "dict"
  | OInstance RandomForestClassifier _ => "RandomForestClassifier"
  | OInstance (OtherClass n) _ => n
  end.

(** What iterating an object gives, if it can be iterated: the entries of
    a tuple or list, the characters of a string, the keys of a dict, and
    for an instance what the object says. *)
Definition iter_items (o : PyObj) : option (Result (list PyObj)) :=
  match o with
  | OTuple xs | OList xs => Some (Ok xs)
  | OStr s => Some (Ok (OStr <$> code_points s))
  | ODict d => Some (Ok ((λ kv, OStr kv.1) <$> map_to_list d))
  | ONone | OFloat _ => None
  | OInstance _ obj => iteration obj
  end.

(** [a, b = o] *)
Definition unpack2 (o : PyObj) : Result (PyObj * PyObj) :=
  match iter_items o with
  | None =>
      Raise (mkExc TypeError
               ("cannot unpack non-iterable " ++ type_name o ++ " object"))
  | Some (Raise e) => Raise e
  | Some (Ok [a; b]) => Ok (a, b)
  | Some (Ok (_ :: _ :: _ :: _)) =>
      Raise (mkExc ValueError "too many values to unpack (expected 2)")
  | Some (Ok xs) =>
      Raise (mkExc ValueError
               ("not enough values to unpack (expected 2, got "
                ++ pretty (length xs) ++ ")"))
  end.

(** [a <= b] where one side is a float: two floats compare as IEEE 754
    says, anything else against a float is a [TypeError]. *)
Definition py_le (a b : PyObj) : Result bool :=
  match a, b with
  | OFloat x, OFloat y => Ok (PrimFloat.leb x y)
  | _, _ =>
      Raise (mkExc TypeError
               ("'<=' not supported between instances of '" ++ type_name a
                ++ "' and '" ++ type_name b ++ "'"))
  end.

(** [np.array(features).reshape(1, -1)]: one sample, one column per value. *)
Definition reshape_1 (features : list float) : list (list float) := [features].

(** [a[0]] on an array. *)
Definition index0 {A} (a : list A) : Result A :=
  match a with
  | x :: _ => Ok x
  | [] =>
      Raise (mkExc IndexError
               "index 0 is out of bounds for axis 0 with size 0")
  end.

(** ** The three functions of the scoring path *)

Definition load_data : Py (PyObj * PyObj * PyObj) :=
  try_except
    (do f <- open_rb "model/random_forest_model.pkl";
     do model <- pickle_load f;
     do f <- open_rb "model/feature_names.pkl";
     do feature_names <- pickle_load f;
     do f <- open_rb "model/feature_ranges.pkl";
     do feature_ranges <- pickle_load f;
     if negb (isinstance_forest model) then
       raise (mkExc ValueError "Loaded model is not a RandomForestClassifier")
     else if negb (isinstance_list feature_names) || negb (truthy feature_names) then
       raise (mkExc ValueError "Invalid or empty feature names")
     else if negb (isinstance_dict feature_ranges) || negb (truthy feature_ranges) then
       raise (mkExc ValueError "Invalid or empty feature ranges")
     else
       ret (model, feature_names, feature_ranges))
    (except_ "FileNotFoundError" (λ e,
       st_error ("Required model file not found: " ++ exc_str e) >>
       st_info "Please ensure all model files are present in the 'model' directory" >>
       raise e)
    (except_ "UnpicklingError" (λ e,
       st_error ("Error loading model files: " ++ exc_str e) >>
       st_info "Model files may be corrupted or incompatible" >>
       raise e)
    (except_ "Exception" (λ e,
       st_error ("Unexpected error loading model: " ++ exc_str e) >>
       raise e)
     uncaught))).

Definition predict_cancer_risk (model : Classifier) (features : list float)
    (feature_names : list PyObj) : Py (Z * list float) :=
  try_except
    (if negb (Nat.eqb (length features) (length feature_names)) then
       raise (mkExc ValueError "Number of features doesn't match model requirements")
     else
       let features_array := reshape_1 features in
       do labels <- call (predict model features_array);
       do prediction <- lift (index0 labels);
       do rows <- call (predict_proba model features_array);
       do probability <- lift (index0 rows);
       ret (prediction, probability))
    (except_ "Exception" (λ e,
       st_error ("Error during prediction: " ++ exc_str e) >> raise e)
     uncaught).

Definition validate_input_range (value : float) (feature_name : string)
    (feature_ranges : gmap string PyObj) : Result bool :=
  match feature_ranges !! feature_name with
  | None => Ok true
  | Some entry =>
      '(min_val, max_val) ← unpack2 entry;
      below ← py_le min_val (OFloat value);
      if below : bool then py_le (OFloat value) max_val else Ok false
  end.

(** ** Properties of classifiers and of results *)

(** The outcome of a call does not depend on the state of the object. *)
Definition deterministic (model : Classifier) : Prop :=
  ∀ X s s',
    (predict model X s).1 = (predict model X s').1 ∧
    (predict_proba model X s).1 = (predict_proba model X s').1.

(** A label is one of the two classes, 0 or 1. *)
Definition binary_label (l : Z) : bool := Z.eqb l 0 || Z.eqb l 1.

(** Two floats, each in [0,1], whose sum is within 1e-6 of 1.0. *)
Definition is_probability_pair (p : list float) : bool :=
  match p with
  | [p0; p1] =>
      PrimFloat.leb 0 p0 && PrimFloat.leb p0 1 &&
      PrimFloat.leb 0 p1 && PrimFloat.leb p1 1 &&
      PrimFloat.leb (PrimFloat.abs (p0 + p1 - 1)) 1e-6
  | _ => false
  end.

(** The range entry [(min_val, max_val)]. *)
Definition bounds (min_val max_val : float) : PyObj :=
  OTuple [OFloat min_val; OFloat max_val].

(** The classifier of the scoring scenario: label 1 and probabilities
    (0.2, 0.8) for every sample, whatever its state. *)
Definition stub_classifier : Classifier :=
  mkClassifier (λ X s, (Ok ((λ _, 1%Z) <$> X), s))
               (λ X s, (Ok ((λ _, [0.2; 0.8]%float) <$> X), s))
               None.

(** A classifier that shows what it was given: for every sample it
    predicts the number of its columns and gives the sample itself as the
    probability row. *)
Definition echo_classifier : Classifier :=
  mkClassifier (λ X s, (Ok ((λ row, Z.of_nat (length row)) <$> X), s))
               (λ X s, (Ok X, s))
               None.

(** A tree fitted on three classes: it answers class 2 with the class
    probabilities (0.25, 0.25, 0.5). *)
Definition three_class_tree : Classifier :=
  mkClassifier (λ X s, (Ok ((λ _, 2%Z) <$> X), s))
               (λ X s, (Ok ((λ _, [0.25; 0.25; 0.5]%float) <$> X), s))
               None.

(** A forest fitted on three classes, with that one tree: it answers as
    the tree does, and iterating it yields the tree. *)
Definition three_class_forest : Classifier :=
  mkClassifier (predict three_class_tree) (predict_proba three_class_tree)
               (Some (Ok [OInstance (OtherClass "DecisionTreeClassifier")
                            three_class_tree])).

(** The three files of the [model] directory holding the given pickles. *)
Definition model_dir (model feature_names feature_ranges : PyObj)
    : gmap string Blob :=
  {[ "model/random_forest_model.pkl" := Pickle model;
     "model/feature_names.pkl" := Pickle feature_names;
     "model/feature_ranges.pkl" := Pickle feature_ranges ]}.

End Scoring.

Arguments mkClassifier {EstState} predict predict_proba iteration.
Arguments predict {EstState} model X s.
Arguments predict_proba {EstState} model X s.
Arguments iteration {EstState} model.
Arguments ONone {EstState}.
Arguments OFloat {EstState} x.
Arguments OStr {EstState} s.
Arguments OTuple {EstState} xs.
Arguments OList {EstState} xs.
Arguments ODict {EstState} d.
Arguments OInstance {EstState} cls obj.
Arguments Corrupt {EstState} e.
Arguments Pickle {EstState} o.
Arguments mkWorld {EstState} fs page est.
Arguments fs {EstState} w.
Arguments page {EstState} w.
Arguments est {EstState} w.
Arguments ret {EstState A} a w.
Arguments bind {EstState A B} c k w.
Arguments raise {EstState A} e w.
Arguments try_except {EstState A} body clauses w.
Arguments except_ {EstState A} cls handler others e.
Arguments uncaught {EstState A} e.
Arguments lift {EstState A} r w.
Arguments with_page {EstState} w calls.
Arguments st_error {EstState} msg w.
Arguments st_info {EstState} msg w.
Arguments open_rb {EstState} path w.
Arguments pickle_load {EstState} f.
Arguments call {EstState A} m w.
Arguments isinstance_forest {EstState} o.
Arguments isinstance_list {EstState} o.
Arguments isinstance_dict {EstState} o.
Arguments truthy {EstState} o.
Arguments type_name {EstState} o.
Arguments iter_items {EstState} o.
Arguments unpack2 {EstState} o.
Arguments py_le {EstState} a b.
Arguments load_data {EstState} w.
Arguments predict_cancer_risk {EstState} model features feature_names w.
Arguments validate_input_range {EstState} value feature_name feature_ranges.
Arguments deterministic {EstState} model.
Arguments bounds {EstState} min_val max_val.
Arguments stub_classifier {EstState}.
Arguments echo_classifier {EstState}.
Arguments three_class_forest {EstState}.
Arguments model_dir {EstState} model feature_names feature_ranges.

(** ** Concrete data *)

(** A classifier that counts its calls in its state and answers as the stub
    does. *)
Definition counting_stub : Classifier nat :=
  mkClassifier (λ X n, (Ok ((λ _, 1%Z) <$> X), S n))
               (λ X n, (Ok ((λ _, [0.2; 0.8]%float) <$> X), S n))
               None.

(** The artifact of the validation scenarios: features "a" and "b", a range
    for "a" only. *)
Definition names_ab : list (PyObj unit) := [OStr "a"; OStr "b"].

Definition ranges_a : gmap string (PyObj unit) := {[ "a" := bounds 0 10 ]}.

(** A range whose bounds are in the wrong order. *)
Definition ranges_inverted : gmap string (PyObj unit) := {[ "a" := bounds 10 0 ]}.

(** A range entry that is a single number. *)
Definition ranges_scalar : gmap string (PyObj unit) := {[ "a" := OFloat 5 ]}.

Definition world0 (files : gmap string (Blob unit)) : World unit :=
  mkWorld files [] ().

(** A pickled forest, and the world in which the [model] directory holds
    it next to the given names and ranges. *)
Definition forest : PyObj unit := OInstance RandomForestClassifier stub_classifier.

Definition provisioned (feature_names feature_ranges : PyObj unit) : World unit :=
  world0 (model_dir forest feature_names feature_ranges).

(** ** The files of the artifact *)

(** The three paths [load_data] opens, in the order it opens them. *)
Definition artifact_paths : list string :=
  [ "model/random_forest_model.pkl";
    "model/feature_names.pkl";
    "model/feature_ranges.pkl" ].

(** ** The questionnaire of [display_risk_assessment] *)

(** [needle in haystack], on strings. *)
Fixpoint str_in (needle haystack : string) : bool :=
  String.prefix needle haystack ||
  match haystack with
  | EmptyString => false
  | String _ rest => str_in needle rest
  end.

(** What the widgets of the form return. *)
Record Answers := mkAnswers {
  age : Z;
  family_history : string;
  exercise : string;
  diet : string;
  previous_biopsies : string;
  regular_checkups : string
}.

(** The options of the widgets: [st.slider("Age", 18, 100, 25)] and the
    option lists of the select boxes, sliders and radio buttons. *)
Definition family_history_options : list string :=
  ["No"; "Yes - Mother"; "Yes - Sister"; "Yes - Multiple family members"].
Definition exercise_options : list string :=
  ["Rarely"; "1-2 times/month"; "1-2 times/week"; "3+ times/week"].
Definition diet_options : list string := ["Poor"; "Fair"; "Good"; "Excellent"].
Definition previous_biopsies_options : list string :=
  ["No"; "Yes - Benign"; "Yes - Abnormal"; "Unsure"].
Definition regular_checkups_options : list string := ["Yes"; "No"; "Sometimes"].

Definition from_form (a : Answers) : Prop :=
  (18 ≤ age a ≤ 100)%Z ∧
  family_history a ∈ family_history_options ∧
  exercise a ∈ exercise_options ∧
  diet a ∈ diet_options ∧
  previous_biopsies a ∈ previous_biopsies_options ∧
  regular_checkups a ∈ regular_checkups_options.

(** The counter the submitted form computes, one [+=] after the other. *)
Definition risk_factors (a : Answers) : Z :=
  let risk_factors := 0%Z in
  let risk_factors :=
    if (age a >? 50)%Z then (risk_factors + 1)%Z else risk_factors in
  let risk_factors :=
    if str_in "Yes" (family_history a) then
      (risk_factors + (if str_in "Multiple" (family_history a) then 2 else 1))%Z
    else risk_factors in
  let risk_factors :=
    if String.eqb (exercise a) "Rarely" then (risk_factors + 1)%Z
    else risk_factors in
  let risk_factors :=
    if String.eqb (diet a) "Poor" then (risk_factors + 1)%Z else risk_factors in
  let risk_factors :=
    if str_in "Yes" (previous_biopsies a) then (risk_factors + 1)%Z
    else risk_factors in
  let risk_factors :=
    if String.eqb (regular_checkups a) "No" then (risk_factors + 1)%Z
    else risk_factors in
  risk_factors.

Definition risk_level (risk_factors : Z) : string :=
  if (risk_factors <=? 2)%Z then "Low"
  else if (risk_factors <=? 4)%Z then "Moderate"
  else "High".

Definition risk_color (risk_level : string) : string :=
  if String.eqb risk_level "Low" then "#28a745"
  else if String.eqb risk_level "Moderate" then "#ffc107"
  else "#dc3545".

(** The list the form fills with [append], in the order of its tests. *)
Definition recommendations (a : Answers) : list string :=
  let recommendations : list string := [] in
  let recommendations :=
    if (age a >? 40)%Z then
      (recommendations ++
       ["• Schedule regular mammograms as recommended by your healthcare provider"])%list
    else recommendations in
  let recommendations :=
    if str_in "Yes" (family_history a) then
      (recommendations ++
       ["• Consider genetic counseling to understand your family history better"])%list
    else recommendations in
  let recommendations :=
    if String.eqb (exercise a) "Rarely" then
      (recommendations ++
       ["• Try to incorporate more physical activity into your routine"])%list
    else recommendations in
  let recommendations :=
    if String.eqb (diet a) "Poor" then
      (recommendations ++
       ["• Consider consulting a nutritionist for dietary guidance"])%list
    else recommendations in
  let recommendations :=
    if String.eqb (regular_checkups a) "No" then
      (recommendations ++
       ["• Schedule regular check-ups with your healthcare provider"])%list
    else recommendations in
  recommendations.

(** ** The main application logic *)

Section Application.

Variable EstState : Type.

(** The sidebar, which returns the selected page, and the four page
    functions; each is a computation on the world. *)
Variable create_sidebar : Py EstState string.
Variables display_home_page display_risk_assessment : Py EstState unit.
Variables display_self_examination_guide display_risk_factors_prevention :
  Py EstState unit.

(** The page routing of the module body and its handler, which catches the
    instances of [Exception], writes the error and a hint and does not raise
    again. *)
Definition main_application_logic : Py EstState unit :=
  try_except
    (bind create_sidebar (λ page,
       if String.eqb page "Home" then display_home_page
       else if String.eqb page "Risk Assessment" then display_risk_assessment
       else if String.eqb page "Self-Examination Guide" then
         display_self_examination_guide
       else if String.eqb page "Risk Factors & Prevention" then
         display_risk_factors_prevention
       else ret ()))
    (except_ "Exception" (λ e,
       bind (st_error ("An error occurred: " ++ exc_str e))
            (λ _, st_info "Please refresh the page and try again."))
     uncaught).

End Application.

Arguments main_application_logic {EstState} create_sidebar display_home_page
  display_risk_assessment display_self_examination_guide
  display_risk_factors_prevention w.

(** The options of the sidebar's radio button. *)
Definition sidebar_options : list string :=
  ["Home"; "Risk Assessment"; "Self-Examination Guide";
   "Risk Factors & Prevention"].

(** * Theorems *)

(** ** The order of binary64 floats *)

Module FloatOrder.

Ltac split_compare :=
  repeat match goal with
  | H : context [(?a ?= ?b)%Z] |- _ => destruct (Z.compare_spec a b)
  | |- context [(?a ?= ?b)%Z] => destruct (Z.compare_spec a b)
  | H : context [Pos.compare_cont Eq ?a ?b] |- _ =>
      change (Pos.compare_cont Eq a b) with (a ?= b)%positive in *;
      destruct (Pos.compare_spec a b)
  | |- context [Pos.compare_cont Eq ?a ?b] =>
      change (Pos.compare_cont Eq a b) with (a ?= b)%positive in *;
      destruct (Pos.compare_spec a b)
  end.

(** Every class and sign of the floats at hand, then every outcome of the
    exponent and mantissa comparisons. *)
Ltac by_float_cases :=
  repeat match goal with x : spec_float |- _ => destruct x end;
  repeat match goal with b : bool |- _ => destruct b end;
  cbn in *; try discriminate; try reflexivity;
  split_compare; cbn in *; try discriminate; try reflexivity; try lia.

Lemma SFltb_not_SFleb x y : SFltb x y = true → SFleb y x = false.
Proof. unfold SFltb, SFleb, SFcompare. intros H. by_float_cases. Qed.

Lemma SFeqb_SFleb x y :
  SFeqb x y = true → SFleb x y = true ∧ SFleb y x = true.
Proof. unfold SFeqb, SFleb, SFcompare. intros H. split; by_float_cases. Qed.

Lemma SFleb_trans x y z :
  SFleb x y = true → SFleb y z = true → SFleb x z = true.
Proof. unfold SFleb, SFcompare. intros H1 H2. by_float_cases. Qed.

Lemma ltb_not_leb x y : PrimFloat.ltb x y = true → PrimFloat.leb y x = false.
Proof.
  rewrite FloatAxioms.ltb_spec, FloatAxioms.leb_spec. apply SFltb_not_SFleb.
Qed.

Lemma eqb_leb x y :
  PrimFloat.eqb x y = true →
  PrimFloat.leb x y = true ∧ PrimFloat.leb y x = true.
Proof.
  rewrite FloatAxioms.eqb_spec, !FloatAxioms.leb_spec. apply SFeqb_SFleb.
Qed.

Lemma leb_trans x y z :
  PrimFloat.leb x y = true → PrimFloat.leb y z = true →
  PrimFloat.leb x z = true.
Proof. rewrite !FloatAxioms.leb_spec. apply SFleb_trans. Qed.

End FloatOrder.

(** ** The range check *)

Section RangeCheck.

Variable EstState : Type.
Implicit Types (feature_ranges : gmap string (PyObj EstState)).
Implicit Types (feature_name : string) (value min_val max_val : float).

(** On an entry that is a pair of numbers the check is the chained
    comparison of the source. *)
Lemma validate_bounds feature_ranges feature_name min_val max_val value :
  feature_ranges !! feature_name = Some (bounds min_val max_val) →
  validate_input_range value feature_name feature_ranges
  = Ok (PrimFloat.leb min_val value && PrimFloat.leb value max_val).
Proof.
  intros Hentry. unfold validate_input_range. rewrite Hentry. cbn.
  by destruct (PrimFloat.leb min_val value).
Qed.

(** C2: a feature name with no entry in [feature_ranges] is in range for
    every value, and a name whose entry is [(min_val, max_val)] is checked
    against exactly these two bounds. *)
Theorem absent_range_unchecked feature_ranges feature_name value :
  (feature_ranges !! feature_name = None →
   validate_input_range value feature_name feature_ranges = Ok true) ∧
  (∀ min_val max_val,
     feature_ranges !! feature_name = Some (bounds min_val max_val) →
     validate_input_range value feature_name feature_ranges
     = Ok (PrimFloat.leb min_val value && PrimFloat.leb value max_val)).
Proof.
  split.
  - intros Habsent. unfold validate_input_range. by rewrite Habsent.
  - intros min_val max_val. apply validate_bounds.
Qed.

(** C3, as amended: when [min_val <= max_val], a value equal to either
    bound is in range; and whatever the order of the bounds, a value
    strictly below [min_val] or strictly above [max_val] is out of range. *)
Theorem inclusive_bounds feature_ranges feature_name min_val max_val value :
  feature_ranges !! feature_name = Some (bounds min_val max_val) →
  (PrimFloat.leb min_val max_val = true →
   PrimFloat.eqb value min_val = true ∨ PrimFloat.eqb value max_val = true →
   validate_input_range value feature_name feature_ranges = Ok true) ∧
  (PrimFloat.ltb value min_val = true ∨ PrimFloat.ltb max_val value = true →
   validate_input_range value feature_name feature_ranges = Ok false).
Proof.
  intros Hentry. rewrite (validate_bounds _ _ _ _ _ Hentry). split.
  - intros Hle [Heq | Heq]; apply FloatOrder.eqb_leb in Heq as [Hvb Hbv].
    + rewrite Hbv. cbn. f_equal. eapply FloatOrder.leb_trans; eassumption.
    + rewrite Hvb, andb_true_r. f_equal.
      eapply FloatOrder.leb_trans; eassumption.
  - intros [Hlt | Hlt]; apply FloatOrder.ltb_not_leb in Hlt; rewrite Hlt.
    + done.
    + by rewrite andb_false_r.
Qed.

End RangeCheck.

(** ** The loader *)

Section Loader.

Variable EstState : Type.
Implicit Types (w : World EstState) (model feature_names feature_ranges : PyObj EstState).

(** A list that is not empty, a dict that is not empty. *)
Lemma list_checks feature_names :
  negb (isinstance_list feature_names) || negb (truthy feature_names) = false
  ↔ ∃ xs, feature_names = OList xs ∧ xs ≠ [].
Proof.
  split.
  - destruct feature_names as [| | | |xs| |]; try discriminate.
    destruct xs; [discriminate | eauto].
  - by intros ([|x xs] & -> & Hne).
Qed.

Lemma dict_checks feature_ranges :
  negb (isinstance_dict feature_ranges) || negb (truthy feature_ranges) = false
  ↔ ∃ d, feature_ranges = ODict d ∧ d ≠ ∅.
Proof.
  split.
  - destruct feature_ranges as [| | | | |d|]; try discriminate.
    cbn. intros Hsize. exists d. split; [done |]. intros ->.
    by rewrite map_size_empty in Hsize.
  - intros (d & -> & Hne). cbn. apply map_size_non_empty_iff in Hne.
    by destruct (size d).
Qed.

(** When the three files unpickle, the outcome is that of the three checks,
    in their order; a failed check is reported by the catch-all handler. *)
Lemma load_data_unpickled w model feature_names feature_ranges :
  fs w !! "model/random_forest_model.pkl" = Some (Pickle model) →
  fs w !! "model/feature_names.pkl" = Some (Pickle feature_names) →
  fs w !! "model/feature_ranges.pkl" = Some (Pickle feature_ranges) →
  load_data w =
    let failed msg :=
      (Raise (mkExc ValueError msg),
       with_page w [StError ("Unexpected error loading model: " ++ msg)]) in
    if negb (isinstance_forest model) then
      failed "Loaded model is not a RandomForestClassifier"
    else if negb (isinstance_list feature_names) || negb (truthy feature_names) then
      failed "Invalid or empty feature names"
    else if negb (isinstance_dict feature_ranges) || negb (truthy feature_ranges) then
      failed "Invalid or empty feature ranges"
    else (Ok (model, feature_names, feature_ranges), w).
Proof.
  intros Hm Hn Hr.
  unfold load_data, try_except, bind, open_rb. rewrite Hm. cbn.
  rewrite Hn. cbn. rewrite Hr. cbn.
  destruct (isinstance_forest model); cbn; [| done].
  destruct (negb (isinstance_list feature_names) || negb (truthy feature_names));
    cbn; [done |].
  by destruct (negb (isinstance_dict feature_ranges) || negb (truthy feature_ranges)).
Qed.

(** Whatever the handlers do, they raise again: a result is returned only
    when the three files unpickle. *)
Lemma load_data_returns w model feature_names feature_ranges :
  (load_data w).1 = Ok (model, feature_names, feature_ranges) →
  fs w !! "model/random_forest_model.pkl" = Some (Pickle model) ∧
  fs w !! "model/feature_names.pkl" = Some (Pickle feature_names) ∧
  fs w !! "model/feature_ranges.pkl" = Some (Pickle feature_ranges).
Proof.
  destruct (fs w !! "model/random_forest_model.pkl") as [[e1|o1]|] eqn:Hm;
    [| destruct (fs w !! "model/feature_names.pkl") as [[e2|o2]|] eqn:Hn;
       [| destruct (fs w !! "model/feature_ranges.pkl") as [[e3|o3]|] eqn:Hr
        |] |];
    try (unfold load_data, try_except, except_, uncaught, bind, open_rb;
         rewrite Hm; cbn; rewrite ?Hn; cbn; rewrite ?Hr; cbn;
         repeat case_match; simplify_eq; cbn; discriminate).
  rewrite (load_data_unpickled _ _ _ _ Hm Hn Hr). cbn.
  repeat case_match; cbn; intros; simplify_eq; done.
Qed.

(** C5: when the feature-name file unpickles to something that is not a
    list, or to the empty list, [load_data] returns nothing; and when the
    other two files unpickle as well, what it raises is a [ValueError],
    reported on the page. *)
Theorem empty_names_rejected w feature_names :
  fs w !! "model/feature_names.pkl" = Some (Pickle feature_names) →
  isinstance_list feature_names = false ∨ feature_names = OList [] →
  is_ok (load_data w).1 = false ∧
  ∀ model feature_ranges,
    fs w !! "model/random_forest_model.pkl" = Some (Pickle model) →
    fs w !! "model/feature_ranges.pkl" = Some (Pickle feature_ranges) →
    ∃ msg,
      load_data w =
        (Raise (mkExc ValueError msg),
         with_page w [StError ("Unexpected error loading model: " ++ msg)]) ∧
      (isinstance_forest model = true → msg = "Invalid or empty feature names").
Proof.
  intros Hn Hbad.
  assert (Hcheck :
    negb (isinstance_list feature_names) || negb (truthy feature_names) = true).
  { destruct Hbad as [Hnolist | ->]; [by rewrite Hnolist | done]. }
  split.
  - destruct (load_data w).1 as [[[m n] r]|e] eqn:Hres; [| done].
    apply load_data_returns in Hres as Hfiles.
    destruct Hfiles as (Hm & Hn' & Hr).
    rewrite (load_data_unpickled _ _ _ _ Hm Hn' Hr) in Hres.
    rewrite Hn in Hn'. simplify_eq. rewrite Hcheck in Hres.
    by destruct (isinstance_forest m).
  - intros model feature_ranges Hm Hr.
    rewrite (load_data_unpickled _ _ _ _ Hm Hn Hr), Hcheck.
    destruct (isinstance_forest model); cbn; eauto.
    eexists. split; [done | discriminate].
Qed.

(** C6, as amended: of [feature_names] the loader checks that it is a list
    and that it is not empty, nothing else.  With a forest and a non-empty
    dict of ranges in the other two files, every non-empty list is returned
    as it was unpickled, whatever its entries, and anything else is refused
    with [ValueError]. *)
Theorem names_check_exact w model feature_names feature_ranges :
  fs w !! "model/random_forest_model.pkl" = Some (Pickle model) →
  fs w !! "model/feature_names.pkl" = Some (Pickle feature_names) →
  fs w !! "model/feature_ranges.pkl" = Some (Pickle feature_ranges) →
  isinstance_forest model = true →
  (∃ d, feature_ranges = ODict d ∧ d ≠ ∅) →
  ((∃ xs, feature_names = OList xs ∧ xs ≠ []) →
   load_data w = (Ok (model, feature_names, feature_ranges), w)) ∧
  (¬ (∃ xs, feature_names = OList xs ∧ xs ≠ []) →
   (load_data w).1 = Raise (mkExc ValueError "Invalid or empty feature names")).
Proof.
  intros Hm Hn Hr Hforest Hdict%dict_checks.
  rewrite (load_data_unpickled _ _ _ _ Hm Hn Hr), Hforest, Hdict. cbn.
  split.
  - intros Hlist%list_checks. by rewrite Hlist.
  - intros Hnot.
    destruct (negb (isinstance_list feature_names) || negb (truthy feature_names))
      eqn:Hcheck; [done |].
    by apply list_checks in Hcheck.
Qed.

(** C7, as amended: of [feature_ranges] the loader checks that it is a dict
    and that it is not empty, nothing else.  With a forest and a non-empty
    list of names in the other two files, every non-empty dict is returned
    as it was unpickled, whatever its entries, and anything else is refused
    with [ValueError]. *)
Theorem ranges_check_exact w model feature_names feature_ranges :
  fs w !! "model/random_forest_model.pkl" = Some (Pickle model) →
  fs w !! "model/feature_names.pkl" = Some (Pickle feature_names) →
  fs w !! "model/feature_ranges.pkl" = Some (Pickle feature_ranges) →
  isinstance_forest model = true →
  (∃ xs, feature_names = OList xs ∧ xs ≠ []) →
  ((∃ d, feature_ranges = ODict d ∧ d ≠ ∅) →
   load_data w = (Ok (model, feature_names, feature_ranges), w)) ∧
  (¬ (∃ d, feature_ranges = ODict d ∧ d ≠ ∅) →
   (load_data w).1 = Raise (mkExc ValueError "Invalid or empty feature ranges")).
Proof.
  intros Hm Hn Hr Hforest Hlist%list_checks.
  rewrite (load_data_unpickled _ _ _ _ Hm Hn Hr), Hforest, Hlist. cbn.
  split.
  - intros Hdict%dict_checks. by rewrite Hdict.
  - intros Hnot.
    destruct (negb (isinstance_dict feature_ranges) || negb (truthy feature_ranges))
      eqn:Hcheck; [done |].
    by apply dict_checks in Hcheck.
Qed.

(** C10: an entry whose bounds are in the wrong order, [min_val > max_val],
    puts every value of its feature out of range; and the loader returns a
    dict that holds such an entry. *)
Theorem inverted_range_never_in_range
    (d : gmap string (PyObj EstState)) feature_name min_val max_val :
  d !! feature_name = Some (bounds min_val max_val) →
  PrimFloat.ltb max_val min_val = true →
  (∀ value, validate_input_range value feature_name d = Ok false) ∧
  (∀ w model xs,
     fs w !! "model/random_forest_model.pkl" = Some (Pickle model) →
     fs w !! "model/feature_names.pkl" = Some (Pickle (OList xs)) →
     fs w !! "model/feature_ranges.pkl" = Some (Pickle (ODict d)) →
     isinstance_forest model = true → xs ≠ [] →
     load_data w = (Ok (model, OList xs, ODict d), w)).
Proof.
  intros Hentry Hgt. split.
  - intros value. rewrite (validate_bounds _ _ _ _ _ _ Hentry).
    f_equal. apply FloatOrder.ltb_not_leb in Hgt.
    destruct (PrimFloat.leb min_val value) eqn:Hlo; [| done].
    destruct (PrimFloat.leb value max_val) eqn:Hhi; [| done].
    rewrite (FloatOrder.leb_trans _ _ _ Hlo Hhi) in Hgt. discriminate.
  - intros w model xs Hm Hn Hr Hforest Hne.
    rewrite (load_data_unpickled _ _ _ _ Hm Hn Hr), Hforest. cbn.
    destruct xs; [done |]. cbn.
    assert (Hsize : size d ≠ 0).
    { apply map_size_non_empty_iff. intros ->. by rewrite lookup_empty in Hentry. }
    by destruct (size d).
Qed.

End Loader.

(** ** The scorer *)

Section Scorer.

Variable EstState : Type.
Implicit Types (w : World EstState) (model : Classifier EstState).
Implicit Types (features : list float) (feature_names : list (PyObj EstState)).

Ltac run_scorer :=
  unfold predict_cancer_risk, try_except, except_, uncaught, bind, call,
    lift, ret, raise, st_error; cbn.

(** Whether the handler catches the exception or not. *)
Ltac by_handler :=
  repeat match goal with
  | |- context [isinstance_exc ?e "Exception"] =>
      destruct (isinstance_exc e "Exception"); cbn
  end.

(** A result comes back only from an arity-matching call in which the
    classifier answered both questions for the one sample. *)
Lemma predict_cancer_risk_returns model features feature_names w l p :
  (predict_cancer_risk model features feature_names w).1 = Ok (l, p) →
  length features = length feature_names ∧
  ∃ labels s1 rows,
    predict model (reshape_1 features) (est w) = (Ok (l :: labels), s1) ∧
    (predict_proba model (reshape_1 features) s1).1 = Ok (p :: rows).
Proof.
  run_scorer.
  destruct (Nat.eqb_spec (length features) (length feature_names)) as [Hlen|];
    cbn; [| discriminate].
  destruct (predict model _ (est w)) as [[[|l' labels]|e] s1]; cbn;
    by_handler; try discriminate.
  destruct (predict_proba model _ s1) as [[[|p' rows]|e] s2] eqn:Hrows; cbn;
    by_handler; try discriminate.
  intros [= -> ->]. split; [done |]. exists labels, s1, rows.
  by rewrite Hrows.
Qed.

Lemma predict_cancer_risk_answers model features feature_names w l p labels s1 rows s2 :
  length features = length feature_names →
  predict model (reshape_1 features) (est w) = (Ok (l :: labels), s1) →
  predict_proba model (reshape_1 features) s1 = (Ok (p :: rows), s2) →
  predict_cancer_risk model features feature_names w
  = (Ok (l, p), mkWorld (fs w) (page w) s2).
Proof.
  intros Hlen Hl Hp. run_scorer.
  apply Nat.eqb_eq in Hlen as ->. cbn. rewrite Hl. cbn. by rewrite Hp.
Qed.

(** The outcome of a call on a deterministic classifier is the same in
    every world. *)
Lemma predict_cancer_risk_world model features feature_names w w' :
  deterministic model →
  (predict_cancer_risk model features feature_names w).1
  = (predict_cancer_risk model features feature_names w').1.
Proof.
  intros Hdet. run_scorer.
  destruct (Nat.eqb (length features) (length feature_names)); cbn; [| done].
  pose proof (Hdet (reshape_1 features) (est w) (est w')) as [Hl _].
  destruct (predict model _ (est w)) as [r s1],
           (predict model _ (est w')) as [r' s1'].
  cbn in Hl. subst r'. destruct r as [[|l labels]|e]; cbn; by_handler;
    try done.
  pose proof (Hdet (reshape_1 features) s1 s1') as [_ Hp].
  destruct (predict_proba model _ s1) as [q s2],
           (predict_proba model _ s1') as [q' s2'].
  cbn in Hp. subst q'. by destruct q as [[|p rows]|e]; cbn; by_handler.
Qed.

(** C1, as amended: a vector whose length differs from that of
    [feature_names] makes [predict_cancer_risk] raise [ValueError]; the
    error is written to the page and the classifier is left untouched, so
    nothing is truncated or padded.  [validate_input_range] sees one value
    and one name, and has no arity check: where the name has no range or a
    pair of numbers as range, it answers with a boolean. *)
Theorem arity_mismatch_raises :
  (∀ model features feature_names w,
     length features ≠ length feature_names →
     predict_cancer_risk model features feature_names w =
       (Raise (mkExc ValueError
                 "Number of features doesn't match model requirements"),
        with_page w
          [StError "Error during prediction: Number of features doesn't match model requirements"])) ∧
  (∀ value feature_name (feature_ranges : gmap string (PyObj EstState)),
     feature_ranges !! feature_name = None ∨
     (∃ min_val max_val,
        feature_ranges !! feature_name = Some (bounds min_val max_val)) →
     is_ok (validate_input_range value feature_name feature_ranges) = true).
Proof.
  split.
  - intros model features feature_names w Hlen. run_scorer.
    by apply Nat.eqb_neq in Hlen as ->.
  - intros value feature_name feature_ranges [Habsent | (lo & hi & Hentry)].
    + unfold validate_input_range. by rewrite Habsent.
    + by rewrite (validate_bounds _ _ _ _ _ _ Hentry).
Qed.


(** C8: on a deterministic classifier, a second call with the same vector,
    made in the world the first call left, has the outcome of the first. *)
Theorem scorer_idempotent model features feature_names w :
  deterministic model →
  let first := predict_cancer_risk model features feature_names w in
  (predict_cancer_risk model features feature_names first.2).1 = first.1.
Proof. intros Hdet. cbn. by apply predict_cancer_risk_world. Qed.

(** C9: for an arity-matching vector, the scorer returns [(l, p)] exactly
    when [l] is what the classifier predicts for the one-sample array whose
    only row is the flat vector and [p] is the probability row it gives for
    that sample.  Against the stub that always answers label 1 and
    (0.2, 0.8), the result is (1, (0.2, 0.8)) and the world is unchanged;
    against the classifier that answers with what it was given, the result
    is the number of values of the vector and the vector itself. *)
Theorem scorer_passes_through features feature_names w :
  length features = length feature_names →
  (∀ model l p,
     (predict_cancer_risk model features feature_names w).1 = Ok (l, p) ↔
     ∃ labels s1 rows,
       predict model [features] (est w) = (Ok (l :: labels), s1) ∧
       (predict_proba model [features] s1).1 = Ok (p :: rows)) ∧
  predict_cancer_risk stub_classifier features feature_names w
  = (Ok (1%Z, [0.2; 0.8]%float), w) ∧
  predict_cancer_risk echo_classifier features feature_names w
  = (Ok (Z.of_nat (length features), features), w).
Proof.
  intros Hlen. split; [| split].
  - intros model l p. split.
    + by intros [_ ?]%predict_cancer_risk_returns.
    + intros (labels & s1 & rows & Hl & Hp).
      destruct (predict_proba model [features] s1) as [q s2] eqn:Hq.
      cbn in Hp. subst q.
      by rewrite (predict_cancer_risk_answers _ _ _ _ _ _ _ _ _ _ Hlen Hl Hq).
  - rewrite (predict_cancer_risk_answers stub_classifier _ _ w 1%Z
               [0.2; 0.8]%float [] (est w) [] (est w) Hlen); [| done | done].
    by destruct w.
  - rewrite (predict_cancer_risk_answers echo_classifier _ _ w
               (Z.of_nat (length features)) features [] (est w) [] (est w)
               Hlen); [| done | done].
    by destruct w.
Qed.

End Scorer.

(** ** The theorems at concrete inputs *)

Lemma counting_stub_deterministic : deterministic counting_stub.
Proof. by intros X s s'. Qed.

(** [predict_cancer_risk] on the one-value vector of scenario 3. *)
Lemma arity_mismatch_raises_witness :
  predict_cancer_risk stub_classifier [5%float] names_ab (world0 ∅) =
    (Raise (mkExc ValueError
              "Number of features doesn't match model requirements"),
     with_page (world0 ∅)
       [StError "Error during prediction: Number of features doesn't match model requirements"]) ∧
  is_ok (validate_input_range 5 "a" ranges_a) = true.
Proof.
  split.
  - apply (proj1 (arity_mismatch_raises unit)). cbn. lia.
  - apply (proj2 (arity_mismatch_raises unit)). right.
    exists 0%float, 10%float. reflexivity.
Defined.

(** The validator has no arity check: on the vector [5] of scenario 3,
    one value for two names, it answers with a boolean for either name and
    raises nothing. *)
Lemma validator_ignores_arity :
  length [5%float] ≠ length names_ab ∧
  validate_input_range 5 "a" ranges_a = Ok true ∧
  validate_input_range 5 "b" ranges_a = Ok true.
Proof. split; [cbn; lia | split; reflexivity]. Qed.

(** Scenario 1: the value 999 of feature "b", which has no range. *)
Lemma absent_range_unchecked_witness :
  validate_input_range 999 "b" ranges_a = Ok true ∧
  validate_input_range 5 "a" ranges_a = Ok true.
Proof.
  split.
  - apply (proj1 (absent_range_unchecked unit ranges_a "b" 999)). reflexivity.
  - apply (proj2 (absent_range_unchecked unit ranges_a "a" 5) 0%float 10%float).
    reflexivity.
Defined.

(** The bounds 0 and 10 themselves, and scenario 2's value 11. *)
Lemma inclusive_bounds_witness :
  validate_input_range 10 "a" ranges_a = Ok true ∧
  validate_input_range 11 "a" ranges_a = Ok false.
Proof.
  split.
  - apply (proj1 (inclusive_bounds unit ranges_a "a" 0 10 10 eq_refl));
      [reflexivity | right; reflexivity].
  - apply (proj2 (inclusive_bounds unit ranges_a "a" 0 10 11 eq_refl)).
    right. reflexivity.
Defined.

(** With the entry (10, 0), the value 10 equals the stored minimum and is
    reported out of range. *)
Lemma inverted_bounds_reject_min :
  ranges_inverted !! "a" = Some (bounds 10 0) ∧
  PrimFloat.eqb 10 10 = true ∧
  validate_input_range 10 "a" ranges_inverted = Ok false.
Proof. repeat split; reflexivity. Qed.



(** Scenario 4: the feature-name file holds the empty list. *)
Lemma empty_names_rejected_witness :
  is_ok (load_data (provisioned (OList []) (ODict ranges_a))).1 = false ∧
  ∃ msg,
    load_data (provisioned (OList []) (ODict ranges_a)) =
      (Raise (mkExc ValueError msg),
       with_page (provisioned (OList []) (ODict ranges_a))
         [StError ("Unexpected error loading model: " ++ msg)]) ∧
    (isinstance_forest forest = true → msg = "Invalid or empty feature names").
Proof.
  pose proof (empty_names_rejected unit
                (provisioned (OList []) (ODict ranges_a)) (OList [])
                eq_refl (or_intror eq_refl)) as [Hnone Hraise].
  split; [exact Hnone |].
  exact (Hraise forest (ODict ranges_a) eq_refl eq_refl).
Defined.

(** The two names of the scenarios, as a list, are returned. *)
Lemma names_check_exact_witness :
  load_data (provisioned (OList names_ab) (ODict ranges_a))
  = (Ok (forest, OList names_ab, ODict ranges_a),
     provisioned (OList names_ab) (ODict ranges_a)).
Proof.
  apply (names_check_exact unit (provisioned (OList names_ab) (ODict ranges_a))
           forest (OList names_ab) (ODict ranges_a)
           eq_refl eq_refl eq_refl eq_refl).
  - exists ranges_a. split; [reflexivity | discriminate].
  - exists names_ab. split; [reflexivity | discriminate].
Defined.

(** A feature-name list with the same name twice is returned by the
    loader. *)
Lemma duplicate_names_accepted :
  let feature_names := OList [OStr "a"; OStr "a"] in
  ¬ NoDup ["a"; "a"] ∧
  load_data (provisioned feature_names (ODict ranges_a))
  = (Ok (forest, feature_names, ODict ranges_a),
     provisioned feature_names (ODict ranges_a)).
Proof.
  split; [| reflexivity].
  intros Hnodup. apply NoDup_cons_1_1 in Hnodup. apply Hnodup. by left.
Qed.

(** The one-entry dict of the scenarios is returned. *)
Lemma ranges_check_exact_witness :
  load_data (provisioned (OList names_ab) (ODict ranges_a))
  = (Ok (forest, OList names_ab, ODict ranges_a),
     provisioned (OList names_ab) (ODict ranges_a)).
Proof.
  apply (ranges_check_exact unit (provisioned (OList names_ab) (ODict ranges_a))
           forest (OList names_ab) (ODict ranges_a)
           eq_refl eq_refl eq_refl eq_refl).
  - exists names_ab. split; [reflexivity | discriminate].
  - exists ranges_a. split; [reflexivity | discriminate].
Defined.

(** A range with min 10 above max 0, and a range that is a single number
    and no pair, are both returned by the loader. *)
Lemma malformed_ranges_accepted :
  PrimFloat.ltb 0 10 = true ∧
  load_data (provisioned (OList names_ab) (ODict ranges_inverted))
  = (Ok (forest, OList names_ab, ODict ranges_inverted),
     provisioned (OList names_ab) (ODict ranges_inverted)) ∧
  load_data (provisioned (OList names_ab) (ODict ranges_scalar))
  = (Ok (forest, OList names_ab, ODict ranges_scalar),
     provisioned (OList names_ab) (ODict ranges_scalar)).
Proof. repeat split; reflexivity. Qed.

(** Two calls in a row on a classifier that counts its calls. *)
Lemma scorer_idempotent_witness :
  let w := mkWorld ∅ [] 0 in
  let features := [4.2; 7.8]%float in
  let feature_names := [OStr "a"; OStr "b"] in
  (predict_cancer_risk counting_stub features feature_names
     (predict_cancer_risk counting_stub features feature_names w).2).1
  = (predict_cancer_risk counting_stub features feature_names w).1.
Proof.
  exact (scorer_idempotent nat counting_stub [4.2; 7.8]%float
           [OStr "a"; OStr "b"] (mkWorld ∅ [] 0) counting_stub_deterministic).
Defined.

(** Scenario 5, and the same vector against the classifier that answers
    with what it was given. *)
Lemma scorer_passes_through_witness :
  predict_cancer_risk stub_classifier [4.2; 7.8]%float names_ab (world0 ∅)
  = (Ok (1%Z, [0.2; 0.8]%float), world0 ∅) ∧
  predict_cancer_risk echo_classifier [4.2; 7.8]%float names_ab (world0 ∅)
  = (Ok (2%Z, [4.2; 7.8]%float), world0 ∅).
Proof.
  exact (proj2 (scorer_passes_through unit [4.2; 7.8]%float names_ab
                  (world0 ∅) eq_refl)).
Defined.

(** The entry (10, 0): the bound 10 itself is out of range, and the loader
    returns the dict. *)
Lemma inverted_range_never_in_range_witness :
  validate_input_range 10 "a" ranges_inverted = Ok false ∧
  load_data (provisioned (OList names_ab) (ODict ranges_inverted))
  = (Ok (forest, OList names_ab, ODict ranges_inverted),
     provisioned (OList names_ab) (ODict ranges_inverted)).
Proof.
  pose proof (inverted_range_never_in_range unit ranges_inverted "a" 10 0
                eq_refl eq_refl) as [Hout Hload].
  split; [exact (Hout 10%float) |].
  apply (Hload (provisioned (OList names_ab) (ODict ranges_inverted))
           forest names_ab eq_refl eq_refl eq_refl eq_refl).
  discriminate.
Defined.

(** * Further properties of the code *)

(** ** More on the loader *)

Section LoaderOutcomes.

Variable EstState : Type.
Implicit Types (w : World EstState) (model feature_names feature_ranges : PyObj EstState).

(** Every way the three files can be: absent, unreadable or unpickled. *)
Ltac by_files w :=
  destruct (fs w !! "model/random_forest_model.pkl") as [[?e|?o]|] eqn:?Hm;
  destruct (fs w !! "model/feature_names.pkl") as [[?e|?o]|] eqn:?Hn;
  destruct (fs w !! "model/feature_ranges.pkl") as [[?e|?o]|] eqn:?Hr.

Ltac run_loader :=
  unfold load_data, try_except, except_, uncaught, bind, open_rb,
    pickle_load, raise, ret, st_error, st_info, with_page; cbn.

(** Which of the three clauses catches the exception, if any. *)
Ltac by_clause e :=
  destruct (isinstance_exc e "FileNotFoundError") eqn:?Hmissing;
  [| destruct (isinstance_exc e "UnpicklingError") eqn:?Hunpickling;
     [| destruct (isinstance_exc e "Exception") eqn:?Hexception ] ];
  cbn.

(** [load_data] returns the three objects exactly when the three files
    unpickle to them, the model is a forest, the names are a non-empty list
    and the ranges a non-empty dict. *)
Theorem load_data_succeeds_iff w model feature_names feature_ranges :
  (load_data w).1 = Ok (model, feature_names, feature_ranges) ↔
  fs w !! "model/random_forest_model.pkl" = Some (Pickle model) ∧
  fs w !! "model/feature_names.pkl" = Some (Pickle feature_names) ∧
  fs w !! "model/feature_ranges.pkl" = Some (Pickle feature_ranges) ∧
  isinstance_forest model = true ∧
  (∃ xs, feature_names = OList xs ∧ xs ≠ []) ∧
  (∃ d, feature_ranges = ODict d ∧ d ≠ ∅).
Proof.
  split.
  - intros Hres. apply load_data_returns in Hres as Hfiles.
    destruct Hfiles as (Hm & Hn & Hr). repeat (split; [done |]).
    rewrite (load_data_unpickled _ _ _ _ _ Hm Hn Hr) in Hres.
    destruct (isinstance_forest model); [| done]. cbn in Hres.
    destruct (negb (isinstance_list feature_names) || negb (truthy feature_names))
      eqn:Hlist; [done |].
    destruct (negb (isinstance_dict feature_ranges) || negb (truthy feature_ranges))
      eqn:Hdict; [done |].
    by apply list_checks in Hlist; apply dict_checks in Hdict.
  - intros (Hm & Hn & Hr & Hforest & Hlist%list_checks & Hdict%dict_checks).
    by rewrite (load_data_unpickled _ _ _ _ _ Hm Hn Hr), Hforest, Hlist, Hdict.
Qed.

(** The files are opened in order and the first one that is missing decides:
    [load_data] raises [FileNotFoundError] for that path, whatever the
    earlier files hold and whatever the later ones are, and writes the
    error and the hint to the page. *)
Theorem load_data_first_missing w i path :
  artifact_paths !! i = Some path →
  (∀ j p, j < i → artifact_paths !! j = Some p →
          ∃ o, fs w !! p = Some (Pickle o)) →
  fs w !! path = None →
  load_data w =
    (Raise (mkExc FileNotFoundError
              ("[Errno 2] No such file or directory: '" ++ path ++ "'")),
     with_page w
       [StError ("Required model file not found: "
                 ++ "[Errno 2] No such file or directory: '" ++ path ++ "'");
        StInfo "Please ensure all model files are present in the 'model' directory"]).
Proof.
  intros Hpath Hearlier Hmissing.
  destruct i as [|[|[|i]]]; cbn in Hpath; simplify_eq.
  - run_loader. rewrite Hmissing. cbn. by rewrite <- app_assoc.
  - destruct (Hearlier 0 _ ltac:(lia) eq_refl) as [o0 H0].
    run_loader. rewrite H0. cbn. rewrite Hmissing. cbn.
    by rewrite <- app_assoc.
  - destruct (Hearlier 0 _ ltac:(lia) eq_refl) as [o0 H0].
    destruct (Hearlier 1 _ ltac:(lia) eq_refl) as [o1 H1].
    run_loader. rewrite H0. cbn. rewrite H1. cbn. rewrite Hmissing. cbn.
    by rewrite <- app_assoc.
Qed.

(** The first file on which [pickle.load] raises decides as well: the
    exception is raised again as it is, after the first clause that catches
    it has written to the page.  An exception that is no instance of
    [Exception] is caught by no clause and passes with nothing written. *)
Theorem load_data_first_corrupt w i path e :
  artifact_paths !! i = Some path →
  (∀ j p, j < i → artifact_paths !! j = Some p →
          ∃ o, fs w !! p = Some (Pickle o)) →
  fs w !! path = Some (Corrupt e) →
  load_data w =
    (Raise e,
     if isinstance_exc e "FileNotFoundError" then
       with_page w
         [StError ("Required model file not found: " ++ exc_str e);
          StInfo "Please ensure all model files are present in the 'model' directory"]
     else if isinstance_exc e "UnpicklingError" then
       with_page w
         [StError ("Error loading model files: " ++ exc_str e);
          StInfo "Model files may be corrupted or incompatible"]
     else if isinstance_exc e "Exception" then
       with_page w [StError ("Unexpected error loading model: " ++ exc_str e)]
     else w).
Proof.
  intros Hpath Hearlier Hcorrupt.
  destruct i as [|[|[|i]]]; cbn in Hpath; simplify_eq.
  - run_loader. rewrite Hcorrupt. cbn.
    by_clause e; by rewrite <- ?app_assoc.
  - destruct (Hearlier 0 _ ltac:(lia) eq_refl) as [o0 H0].
    run_loader. rewrite H0. cbn. rewrite Hcorrupt. cbn.
    by_clause e; by rewrite <- ?app_assoc.
  - destruct (Hearlier 0 _ ltac:(lia) eq_refl) as [o0 H0].
    destruct (Hearlier 1 _ ltac:(lia) eq_refl) as [o1 H1].
    run_loader. rewrite H0. cbn. rewrite H1. cbn. rewrite Hcorrupt. cbn.
    by_clause e; by rewrite <- ?app_assoc.
Qed.

(** [load_data] changes neither the files nor the classifier.  When it
    returns, the page is as it was.  When it raises an exception that one
    of its three clauses catches, the page has grown and the first new
    entry is an [st.error] that ends with the text of the exception; when
    it raises one that no clause catches, the world is as it was. *)
Theorem load_data_reports w :
  fs (load_data w).2 = fs w ∧
  est (load_data w).2 = est w ∧
  match (load_data w).1 with
  | Ok _ => (load_data w).2 = w
  | Raise e =>
      if isinstance_exc e "FileNotFoundError"
         || isinstance_exc e "UnpicklingError"
         || isinstance_exc e "Exception"
      then
        ∃ (lead : string) (rest : list StCall),
          page (load_data w).2
          = (page w ++ StError (lead ++ exc_str e)%string :: rest)%list
      else (load_data w).2 = w
  end.
Proof.
  by_files w.
  all: try (rewrite (load_data_unpickled _ _ _ _ _ Hm Hn Hr); cbn;
            repeat case_match; cbn in *; simplify_eq; repeat split; try done;
            exists "Unexpected error loading model: ", []; reflexivity).
  all: run_loader; rewrite Hm; cbn; rewrite ?Hn; cbn; rewrite ?Hr; cbn;
    try match goal with
        | |- context [isinstance_exc ?e "FileNotFoundError"] =>
            by_clause e;
            rewrite ?Hmissing, ?Hunpickling, ?Hexception, ?orb_true_r; cbn
        end;
    repeat split; try done; try (by destruct w);
    rewrite <- ?app_assoc; cbn;
    first [ exists "Required model file not found: "; eexists; reflexivity
          | exists "Error loading model files: "; eexists; reflexivity
          | exists "Unexpected error loading model: "; eexists; reflexivity ].
Qed.

(** After a load that returned, the scorer refuses the empty vector: the
    loaded names are never empty. *)
Theorem loaded_names_refuse_empty_vector
    w cls (model : Classifier EstState) (names : list (PyObj EstState))
    feature_ranges :
  (load_data w).1 = Ok (OInstance cls model, OList names, feature_ranges) →
  ∀ w',
    (predict_cancer_risk model [] names w').1
    = Raise (mkExc ValueError
               "Number of features doesn't match model requirements").
Proof.
  intros Hres w'. apply load_data_returns in Hres as Hfiles.
  destruct Hfiles as (Hm & Hn & Hr).
  rewrite (load_data_unpickled _ _ _ _ _ Hm Hn Hr) in Hres.
  destruct names as [|x xs]; [| done].
  cbn in Hres. by destruct cls.
Qed.

End LoaderOutcomes.

(** ** More on the order of floats: NaN *)

Module FloatNan.

Lemma SFeqb_irrefl_not_SFleb x y :
  SFeqb x x = false → SFleb y x = false ∧ SFleb x y = false.
Proof.
  unfold SFeqb, SFleb, SFcompare. intros H.
  split; FloatOrder.by_float_cases.
Qed.

Lemma SFleb_refl_l x y : SFleb x y = true → SFleb x x = true.
Proof. unfold SFleb, SFcompare. intros H. FloatOrder.by_float_cases. Qed.

(** A float that differs from itself, a NaN, is below nothing and above
    nothing. *)
Lemma nan_not_leb v y :
  PrimFloat.eqb v v = false →
  PrimFloat.leb y v = false ∧ PrimFloat.leb v y = false.
Proof.
  rewrite FloatAxioms.eqb_spec, !FloatAxioms.leb_spec.
  apply SFeqb_irrefl_not_SFleb.
Qed.

Lemma leb_refl_l x y : PrimFloat.leb x y = true → PrimFloat.leb x x = true.
Proof. rewrite !FloatAxioms.leb_spec. apply SFleb_refl_l. Qed.

End FloatNan.

(** ** More on the range check *)

Section RangeOutcomes.

Variable EstState : Type.
Implicit Types (feature_ranges : gmap string (PyObj EstState)).
Implicit Types (feature_name : string) (value min_val max_val : float).
Implicit Types (entry : PyObj EstState).

(** [validate_input_range] answers with a boolean, and does not raise,
    exactly when the name has no entry, or its entry unpacks to two items of
    which the first is a number and either the value is not above it or the
    second is a number too: the second item is looked at only when the first
    comparison holds. *)
Theorem validate_answers_iff value feature_name feature_ranges :
  is_ok (validate_input_range value feature_name feature_ranges) = true ↔
  feature_ranges !! feature_name = None ∨
  ∃ entry min_val upper,
    feature_ranges !! feature_name = Some entry ∧
    unpack2 entry = Ok (OFloat min_val, upper) ∧
    (PrimFloat.leb min_val value = false ∨ ∃ max_val, upper = OFloat max_val).
Proof.
  unfold validate_input_range.
  destruct (feature_ranges !! feature_name) as [entry|] eqn:Hentry;
    [| by split; [left |]].
  destruct (unpack2 entry) as [[lower upper]|e] eqn:Hunpack; cbn.
  2: { split; [done |]. intros [? | (? & ? & ? & ? & ? & ?)]; simplify_eq.
       congruence. }
  split.
  - intros Hok. right. destruct lower as [|min_val| | | | |]; try done.
    exists entry, min_val, upper. repeat (split; [done |]). cbn in Hok.
    destruct (PrimFloat.leb min_val value); [right | by left].
    destruct upper; try done. eauto.
  - intros [? | (entry' & min_val & upper' & ? & Hunpack' & Hcase)];
      simplify_eq.
    rewrite Hunpack in Hunpack'. simplify_eq.
    cbn. destruct Hcase as [-> | [max_val ->]]; [done |].
    by destruct (PrimFloat.leb min_val value).
Qed.

(** An entry that cannot be iterated makes the check raise [TypeError] for
    every value; one whose iteration raises makes it raise that exception;
    and one that yields another number of items than two (for a string, of
    characters) makes it raise [ValueError], for every value. *)
Theorem validate_malformed_entry feature_name feature_ranges entry :
  feature_ranges !! feature_name = Some entry →
  (iter_items entry = None →
   ∀ value, ∃ e,
     validate_input_range value feature_name feature_ranges = Raise e ∧
     exc_class e = TypeError) ∧
  (∀ e, iter_items entry = Some (Raise e) →
   ∀ value, validate_input_range value feature_name feature_ranges = Raise e) ∧
  (∀ items, iter_items entry = Some (Ok items) → length items ≠ 2 →
   ∀ value, ∃ e,
     validate_input_range value feature_name feature_ranges = Raise e ∧
     exc_class e = ValueError).
Proof.
  intros Hentry. unfold validate_input_range, unpack2. rewrite Hentry.
  split; [| split].
  - intros ->. cbn. eauto.
  - by intros e ->.
  - intros items -> Hlen value.
    destruct items as [|a [|b [|c items]]]; cbn in *; eauto. lia.
Qed.

(** A NaN value is out of every range that is a pair of numbers, and in
    range where there is no entry. *)
Theorem nan_never_in_range value feature_name feature_ranges :
  PrimFloat.eqb value value = false →
  (feature_ranges !! feature_name = None →
   validate_input_range value feature_name feature_ranges = Ok true) ∧
  (∀ min_val max_val,
     feature_ranges !! feature_name = Some (bounds min_val max_val) →
     validate_input_range value feature_name feature_ranges = Ok false).
Proof.
  intros Hnan. split.
  - intros Habsent. unfold validate_input_range. by rewrite Habsent.
  - intros min_val max_val Hentry.
    rewrite (validate_bounds _ _ _ _ _ _ Hentry).
    by destruct (FloatNan.nan_not_leb value min_val Hnan) as [-> _].
Qed.

(** The values in range form an interval: what lies between two values in
    range is in range. *)
Theorem range_is_interval feature_name feature_ranges min_val max_val a b value :
  feature_ranges !! feature_name = Some (bounds min_val max_val) →
  validate_input_range a feature_name feature_ranges = Ok true →
  validate_input_range b feature_name feature_ranges = Ok true →
  PrimFloat.leb a value = true → PrimFloat.leb value b = true →
  validate_input_range value feature_name feature_ranges = Ok true.
Proof.
  intros Hentry. rewrite !(validate_bounds _ _ _ _ _ _ Hentry).
  intros [= [Hlo _]%andb_true_iff] [= [_ Hhi]%andb_true_iff] Hav Hvb.
  f_equal. apply andb_true_iff. split.
  - eapply FloatOrder.leb_trans; eassumption.
  - eapply FloatOrder.leb_trans; eassumption.
Qed.

(** A range admits some value exactly when its bounds are in order,
    [min_val <= max_val]; a bound that is NaN admits none. *)
Theorem range_inhabited_iff feature_name feature_ranges min_val max_val :
  feature_ranges !! feature_name = Some (bounds min_val max_val) →
  (∃ value, validate_input_range value feature_name feature_ranges = Ok true)
  ↔ PrimFloat.leb min_val max_val = true.
Proof.
  intros Hentry. split.
  - intros [value Hin]. rewrite (validate_bounds _ _ _ _ _ _ Hentry) in Hin.
    injection Hin as [Hlo Hhi]%andb_true_iff.
    eapply FloatOrder.leb_trans; eassumption.
  - intros Hle. exists min_val. rewrite (validate_bounds _ _ _ _ _ _ Hentry).
    by rewrite (FloatNan.leb_refl_l _ _ Hle), Hle.
Qed.

End RangeOutcomes.

(** ** More on the scorer *)

Section ScorerOutcomes.

Variable EstState : Type.
Implicit Types (w : World EstState) (model : Classifier EstState).
Implicit Types (features : list float) (feature_names : list (PyObj EstState)).

Ltac run_scorer :=
  unfold predict_cancer_risk, try_except, except_, uncaught, bind, call,
    lift, ret, raise, st_error, with_page; cbn.

(** The scorer never changes the files.  When it returns, the page is as it
    was.  When it raises an instance of [Exception], exactly one [st.error]
    was added, with the text of the exception; when it raises anything else
    (the classifier was interrupted, say), the page is as it was. *)
Theorem predict_cancer_risk_reports model features feature_names w :
  fs (predict_cancer_risk model features feature_names w).2 = fs w ∧
  match (predict_cancer_risk model features feature_names w).1 with
  | Ok _ =>
      page (predict_cancer_risk model features feature_names w).2 = page w
  | Raise e =>
      page (predict_cancer_risk model features feature_names w).2
      = if isinstance_exc e "Exception" then
          (page w ++ [StError ("Error during prediction: " ++ exc_str e)%string])%list
        else page w
  end.
Proof.
  run_scorer.
  destruct (Nat.eqb (length features) (length feature_names)); cbn; [| done].
  destruct (predict model _ (est w)) as [[[|l labels]|e] s1]; cbn; try done.
  - by destruct (predict_proba model _ s1) as [[[|p rows]|e] s2]; cbn;
      try destruct (isinstance_exc e "Exception") eqn:He; cbn; rewrite ?He.
  - by destruct (isinstance_exc e "Exception") eqn:He; cbn; rewrite ?He.
Qed.

(** An exception of the classifier comes out of the scorer as it is: after
    one [st.error] when it is an instance of [Exception], with nothing
    written when it is not.  When [predict] raises, [predict_proba] is not
    called: the classifier is left in the state [predict] left. *)
Theorem classifier_error_propagates model features feature_names w :
  length features = length feature_names →
  (∀ e s1,
     predict model [features] (est w) = (Raise e, s1) →
     predict_cancer_risk model features feature_names w
     = (Raise e,
        if isinstance_exc e "Exception" then
          with_page (mkWorld (fs w) (page w) s1)
            [StError ("Error during prediction: " ++ exc_str e)]
        else mkWorld (fs w) (page w) s1)) ∧
  (∀ l labels s1 e s2,
     predict model [features] (est w) = (Ok (l :: labels), s1) →
     predict_proba model [features] s1 = (Raise e, s2) →
     predict_cancer_risk model features feature_names w
     = (Raise e,
        if isinstance_exc e "Exception" then
          with_page (mkWorld (fs w) (page w) s2)
            [StError ("Error during prediction: " ++ exc_str e)]
        else mkWorld (fs w) (page w) s2)).
Proof.
  intros Hlen%Nat.eqb_eq. split.
  - intros e s1 Hl. run_scorer. rewrite Hlen. cbn.
    change (reshape_1 features) with [features]. rewrite Hl. cbn.
    by destruct (isinstance_exc e "Exception").
  - intros l labels s1 e s2 Hl Hp. run_scorer. rewrite Hlen. cbn.
    change (reshape_1 features) with [features]. rewrite Hl. cbn.
    rewrite Hp. cbn. by destruct (isinstance_exc e "Exception").
Qed.

(** A classifier that answers with no entry at all makes the scorer raise
    [IndexError]: for the labels, before [predict_proba] is called, and for
    the probability rows. *)
Theorem empty_answer_index_error model features feature_names w :
  length features = length feature_names →
  let e := mkExc IndexError "index 0 is out of bounds for axis 0 with size 0" in
  (∀ s1,
     predict model (reshape_1 features) (est w) = (Ok [], s1) →
     predict_cancer_risk model features feature_names w
     = (Raise e,
        with_page (mkWorld (fs w) (page w) s1)
          [StError ("Error during prediction: " ++ exc_str e)])) ∧
  (∀ l labels s1 s2,
     predict model (reshape_1 features) (est w) = (Ok (l :: labels), s1) →
     predict_proba model (reshape_1 features) s1 = (Ok [], s2) →
     predict_cancer_risk model features feature_names w
     = (Raise e,
        with_page (mkWorld (fs w) (page w) s2)
          [StError ("Error during prediction: " ++ exc_str e)])).
Proof.
  intros Hlen%Nat.eqb_eq e. split.
  - intros s1 Hl. run_scorer. rewrite Hlen. cbn. by rewrite Hl.
  - intros l labels s1 s2 Hl Hp. run_scorer. rewrite Hlen. cbn.
    rewrite Hl. cbn. by rewrite Hp.
Qed.

(** Of [feature_names] the scorer uses the length and nothing else. *)
Theorem names_matter_by_length model features feature_names
    (other_names : list (PyObj EstState)) w :
  length feature_names = length other_names →
  predict_cancer_risk model features feature_names w
  = predict_cancer_risk model features other_names w.
Proof. intros Hlen. unfold predict_cancer_risk. by rewrite Hlen. Qed.

End ScorerOutcomes.

(** ** The questionnaire *)

Section Questionnaire.

Implicit Types (a : Answers).

Ltac by_answers a :=
  unfold risk_factors, recommendations;
  destruct (age a >? 50)%Z eqn:?Hage50, (age a >? 40)%Z eqn:?Hage40,
    (str_in "Yes" (family_history a)),
    (str_in "Multiple" (family_history a)),
    (String.eqb (exercise a) "Rarely"), (String.eqb (diet a) "Poor"),
    (str_in "Yes" (previous_biopsies a)),
    (String.eqb (regular_checkups a) "No");
  cbn; try lia.

(** The counter stays between 0 and 7, whatever the answers. *)
Theorem risk_factors_bounds a : (0 ≤ risk_factors a ≤ 7)%Z.
Proof. by_answers a. Qed.

(** The counter is at most two more than the number of recommendations, so
    every result above "Low" comes with a recommendation, and "High" with
    three or more. *)
Theorem recommendations_follow_risk a :
  (risk_factors a ≤ Z.of_nat (length (recommendations a)) + 2)%Z ∧
  (risk_level (risk_factors a) ≠ "Low" → recommendations a ≠ []) ∧
  (risk_level (risk_factors a) = "High" →
   (3 ≤ length (recommendations a))%nat).
Proof.
  assert (Hcount : (risk_factors a ≤ Z.of_nat (length (recommendations a)) + 2)%Z).
  { by_answers a. }
  split; [done |]. unfold risk_level. split.
  - destruct (Z.leb_spec (risk_factors a) 2); [done |]. intros _ Hnil.
    rewrite Hnil in Hcount. cbn in Hcount. lia.
  - destruct (Z.leb_spec (risk_factors a) 2); [done |].
    destruct (Z.leb_spec (risk_factors a) 4); [done |]. intros _. lia.
Qed.

(** The answer on previous biopsies can move the counter by one and has no
    recommendation of its own: the recommendations do not depend on it. *)
Theorem biopsies_give_no_recommendation a (other : string) :
  let a' := mkAnswers (age a) (family_history a) (exercise a) (diet a) other
                      (regular_checkups a) in
  recommendations a' = recommendations a ∧
  (risk_factors a - 1 ≤ risk_factors a' ≤ risk_factors a + 1)%Z.
Proof.
  cbn. split; [done |]. unfold risk_factors. cbn.
  destruct (age a >? 50)%Z, (str_in "Yes" (family_history a)),
    (str_in "Multiple" (family_history a)),
    (String.eqb (exercise a) "Rarely"), (String.eqb (diet a) "Poor"),
    (str_in "Yes" (previous_biopsies a)), (str_in "Yes" other),
    (String.eqb (regular_checkups a) "No"); lia.
Qed.

(** On the answers the widgets offer, the substring tests amount to a table:
    a family history other than "No" counts 1 and the answer with several
    family members 2, a biopsy answered "Yes - Benign" or "Yes - Abnormal"
    counts 1, and "Unsure" and "Sometimes" count nothing. *)
Theorem risk_factors_on_form a :
  from_form a →
  risk_factors a =
    ((if (age a >? 50)%Z then 1 else 0)
     + (if String.eqb (family_history a) "No" then 0
        else if String.eqb (family_history a) "Yes - Multiple family members"
             then 2 else 1)
     + (if String.eqb (exercise a) "Rarely" then 1 else 0)
     + (if String.eqb (diet a) "Poor" then 1 else 0)
     + (if String.eqb (previous_biopsies a) "Yes - Benign"
           || String.eqb (previous_biopsies a) "Yes - Abnormal" then 1 else 0)
     + (if String.eqb (regular_checkups a) "No" then 1 else 0))%Z.
Proof.
  intros (_ & Hfamily & _ & _ & Hbiopsies & _).
  unfold risk_factors, family_history_options, previous_biopsies_options in *.
  assert (Hf : str_in "Yes" (family_history a)
               = negb (String.eqb (family_history a) "No")
             ∧ str_in "Multiple" (family_history a)
               = String.eqb (family_history a) "Yes - Multiple family members").
  { set_unfold in Hfamily. by destruct Hfamily as [->|[->|[->|[->|[]]]]]. }
  assert (Hb : str_in "Yes" (previous_biopsies a)
               = String.eqb (previous_biopsies a) "Yes - Benign"
                 || String.eqb (previous_biopsies a) "Yes - Abnormal").
  { set_unfold in Hbiopsies. by destruct Hbiopsies as [->|[->|[->|[->|[]]]]]. }
  destruct Hf as [-> ->]. rewrite Hb.
  destruct (age a >? 50)%Z, (String.eqb (family_history a) "No") eqn:Hno,
    (String.eqb (family_history a) "Yes - Multiple family members") eqn:Hmany,
    (String.eqb (exercise a) "Rarely"), (String.eqb (diet a) "Poor"),
    (String.eqb (previous_biopsies a) "Yes - Benign"
     || String.eqb (previous_biopsies a) "Yes - Abnormal"),
    (String.eqb (regular_checkups a) "No"); cbn; try lia.
  all: apply String.eqb_eq in Hno, Hmany; congruence.
Qed.

End Questionnaire.

(** ** The main application logic *)

Section MainOutcomes.

Variable EstState : Type.
Variable create_sidebar : Py EstState string.
Variables display_home_page display_risk_assessment : Py EstState unit.
Variables display_self_examination_guide display_risk_factors_prevention :
  Py EstState unit.

Abbreviation main :=
  (main_application_logic create_sidebar display_home_page
     display_risk_assessment display_self_examination_guide
     display_risk_factors_prevention).

(** What the handler of the module body makes of the outcome of a page. *)
Abbreviation handled outcome :=
  (match outcome with
   | (Ok _, w') => (Ok (), w')
   | (Raise e, w') =>
       if isinstance_exc e "Exception" then
         (Ok (),
          with_page w'
            [StError ("An error occurred: " ++ exc_str e);
             StInfo "Please refresh the page and try again."])
       else (Raise e, w')
   end).

(** No instance of [Exception] comes out of the module body: the body ends
    normally, or with an exception that derives from [BaseException] only
    (an interrupt, an exit).  An exception of the sidebar that is an
    instance of [Exception] is written to the page with a hint, and no page
    function runs. *)
Theorem main_catches_exceptions w :
  ((main w).1 = Ok () ∨
   ∃ e, (main w).1 = Raise e ∧ isinstance_exc e "Exception" = false) ∧
  (∀ e w1, create_sidebar w = (Raise e, w1) →
           main w = handled (Raise e (A := unit), w1)).
Proof.
  unfold main_application_logic, try_except, except_, uncaught, bind,
    st_error, st_info, ret, with_page.
  split.
  - destruct (create_sidebar w) as [[page|e] w1]; cbn.
    + repeat case_match; simplify_eq; cbn;
        repeat match goal with u : unit |- _ => destruct u end; eauto.
    + destruct (isinstance_exc e "Exception") eqn:He; cbn; eauto.
  - intros e w1 Hside. rewrite Hside. cbn.
    destruct (isinstance_exc e "Exception"); cbn; [| done].
    by rewrite <- app_assoc.
Qed.

(** Each option of the sidebar has its page: when the sidebar returns the
    option at some position, the page function at that position runs, in
    the world the sidebar left; an instance of [Exception] it raises is
    written to the page with a hint and goes no further, any other
    exception goes on.  A page name that is no option runs nothing. *)
Theorem selected_page_is_shown w page w1 :
  create_sidebar w = (Ok page, w1) →
  (∀ i show,
     sidebar_options !! i = Some page →
     [display_home_page; display_risk_assessment;
      display_self_examination_guide; display_risk_factors_prevention] !! i
     = Some show →
     main w = handled (show w1)) ∧
  (page ∉ sidebar_options → main w = (Ok (), w1)).
Proof.
  intros Hside.
  unfold main_application_logic, try_except, except_, uncaught, bind,
    st_error, st_info, ret, with_page.
  rewrite Hside. split.
  - intros i show Hoption Hshow.
    destruct i as [|[|[|[|i]]]]; cbn in Hoption, Hshow; simplify_eq; cbn;
      destruct (show w1) as [[[]|e] w2]; cbn; try done;
      destruct (isinstance_exc e "Exception"); cbn;
      by rewrite <- ?app_assoc.
  - intros Hnone. unfold sidebar_options in Hnone.
    destruct (String.eqb_spec page "Home") as [->|_];
      [exfalso; apply Hnone; set_solver |].
    destruct (String.eqb_spec page "Risk Assessment") as [->|_];
      [exfalso; apply Hnone; set_solver |].
    destruct (String.eqb_spec page "Self-Examination Guide") as [->|_];
      [exfalso; apply Hnone; set_solver |].
    destruct (String.eqb_spec page "Risk Factors & Prevention") as [->|_];
      [exfalso; apply Hnone; set_solver |].
    done.
Qed.

End MainOutcomes.

(** ** The further properties at concrete inputs *)

(** The provisioned [model] directory of the scenarios. *)
Lemma load_data_succeeds_iff_witness :
  (load_data (provisioned (OList names_ab) (ODict ranges_a))).1
  = Ok (forest, OList names_ab, ODict ranges_a).
Proof.
  apply (proj2 (load_data_succeeds_iff unit
                  (provisioned (OList names_ab) (ODict ranges_a))
                  forest (OList names_ab) (ODict ranges_a))).
  repeat split; try reflexivity.
  - exists names_ab. split; [reflexivity | discriminate].
  - exists ranges_a. split; [reflexivity | discriminate].
Defined.

(** Only the model file is there: the feature names are reported missing. *)
Lemma load_data_first_missing_witness :
  let w := world0 {[ "model/random_forest_model.pkl" := Pickle forest ]} in
  load_data w =
    (Raise (mkExc FileNotFoundError
              "[Errno 2] No such file or directory: 'model/feature_names.pkl'"),
     with_page w
       [StError "Required model file not found: [Errno 2] No such file or directory: 'model/feature_names.pkl'";
        StInfo "Please ensure all model files are present in the 'model' directory"]).
Proof.
  apply (load_data_first_missing unit
           (world0 {[ "model/random_forest_model.pkl" := Pickle forest ]})
           1 "model/feature_names.pkl" eq_refl).
  - intros [|j] p Hj Hp; [| lia]. injection Hp as <-.
    exists forest. reflexivity.
  - reflexivity.
Defined.

(** The model file is truncated: [pickle.load] raises [UnpicklingError],
    which is reported; and the load is interrupted from the keyboard, which
    is not. *)
Lemma load_data_first_corrupt_witness :
  let truncated := mkExc UnpicklingError "pickle data was truncated" in
  let interrupt := mkExc KeyboardInterrupt "" in
  let w e := world0 {[ "model/random_forest_model.pkl" := Corrupt e ]} in
  load_data (w truncated) =
    (Raise truncated,
     with_page (w truncated)
       [StError "Error loading model files: pickle data was truncated";
        StInfo "Model files may be corrupted or incompatible"]) ∧
  load_data (w interrupt) = (Raise interrupt, w interrupt).
Proof.
  split.
  - apply (load_data_first_corrupt unit
             (world0 {[ "model/random_forest_model.pkl" :=
                          Corrupt (mkExc UnpicklingError "pickle data was truncated") ]})
             0 "model/random_forest_model.pkl"
             (mkExc UnpicklingError "pickle data was truncated") eq_refl).
    + intros j p Hj. lia.
    + reflexivity.
  - apply (load_data_first_corrupt unit
             (world0 {[ "model/random_forest_model.pkl" :=
                          Corrupt (mkExc KeyboardInterrupt "") ]})
             0 "model/random_forest_model.pkl"
             (mkExc KeyboardInterrupt "") eq_refl).
    + intros j p Hj. lia.
    + reflexivity.
Defined.

Lemma loaded_names_refuse_empty_vector_witness :
  (predict_cancer_risk stub_classifier [] names_ab (world0 ∅)).1
  = Raise (mkExc ValueError
             "Number of features doesn't match model requirements").
Proof.
  exact (loaded_names_refuse_empty_vector unit
           (provisioned (OList names_ab) (ODict ranges_a))
           RandomForestClassifier stub_classifier names_ab (ODict ranges_a)
           eq_refl (world0 ∅)).
Defined.

(** A name without range, and the value 5 against the range (0, 10). *)
Lemma validate_answers_iff_witness :
  is_ok (validate_input_range 5 "a" ranges_a) = true.
Proof.
  apply (proj2 (validate_answers_iff unit 5 "a" ranges_a)).
  right. exists (bounds 0 10), 0%float, (OFloat 10).
  split; [reflexivity |]. split; [reflexivity |]. right. by exists 10%float.
Defined.

(** The entry 5.0, which is no pair, and the entry "é", a string of one
    character. *)
Lemma validate_malformed_entry_witness :
  (∃ e, validate_input_range 7 "a" ranges_scalar = Raise e ∧
        exc_class e = TypeError) ∧
  (∃ e, validate_input_range 7 "a" ({[ "a" := OStr "é" ]} : gmap string (PyObj unit))
        = Raise e ∧
        exc_class e = ValueError).
Proof.
  split.
  - exact (proj1 (validate_malformed_entry unit "a" ranges_scalar (OFloat 5)
                    eq_refl) eq_refl 7%float).
  - exact (proj2 (proj2 (validate_malformed_entry unit "a"
                           {[ "a" := OStr "é" ]} (OStr "é") eq_refl))
             [OStr "é"] eq_refl ltac:(cbn; lia) 7%float).
Defined.

Lemma nan_never_in_range_witness :
  validate_input_range PrimFloat.nan "b" ranges_a = Ok true ∧
  validate_input_range PrimFloat.nan "a" ranges_a = Ok false.
Proof.
  pose proof (nan_never_in_range unit PrimFloat.nan "b" ranges_a eq_refl)
    as [Habsent _].
  pose proof (nan_never_in_range unit PrimFloat.nan "a" ranges_a eq_refl)
    as [_ Hentry].
  split; [exact (Habsent eq_refl) | exact (Hentry 0%float 10%float eq_refl)].
Defined.

Lemma range_is_interval_witness :
  validate_input_range 5 "a" ranges_a = Ok true.
Proof.
  exact (range_is_interval unit "a" ranges_a 0 10 2 8 5
           eq_refl eq_refl eq_refl eq_refl eq_refl).
Defined.

Lemma range_inhabited_iff_witness :
  ∃ value, validate_input_range value "a" ranges_a = Ok true.
Proof.
  exact (proj2 (range_inhabited_iff unit "a" ranges_a 0 10 eq_refl) eq_refl).
Defined.

(** A forest fitted on thirty features, given two; and a prediction that is
    interrupted from the keyboard. *)
Lemma classifier_error_propagates_witness :
  let refused := mkExc ValueError
    "X has 2 features, but RandomForestClassifier is expecting 30 features as input." in
  let interrupt := mkExc KeyboardInterrupt "" in
  let model e := mkClassifier (λ _ s, (Raise e, s)) (λ _ s, (Raise e, s)) None in
  predict_cancer_risk (model refused) [4.2; 7.8]%float names_ab (world0 ∅)
  = (Raise refused,
     with_page (world0 ∅)
       [StError "Error during prediction: X has 2 features, but RandomForestClassifier is expecting 30 features as input."]) ∧
  predict_cancer_risk (model interrupt) [4.2; 7.8]%float names_ab (world0 ∅)
  = (Raise interrupt, world0 ∅).
Proof.
  split.
  - exact (proj1 (classifier_error_propagates unit
                    (mkClassifier
                       (λ _ s, (Raise (mkExc ValueError
                          "X has 2 features, but RandomForestClassifier is expecting 30 features as input."), s))
                       (λ _ s, (Raise (mkExc ValueError
                          "X has 2 features, but RandomForestClassifier is expecting 30 features as input."), s))
                       None)
                    [4.2; 7.8]%float names_ab (world0 ∅) eq_refl)
             _ () eq_refl).
  - exact (proj1 (classifier_error_propagates unit
                    (mkClassifier
                       (λ _ s, (Raise (mkExc KeyboardInterrupt ""), s))
                       (λ _ s, (Raise (mkExc KeyboardInterrupt ""), s))
                       None)
                    [4.2; 7.8]%float names_ab (world0 ∅) eq_refl)
             _ () eq_refl).
Defined.

(** A classifier that answers with empty arrays. *)
Lemma empty_answer_index_error_witness :
  let model := mkClassifier (λ _ s, (Ok [], s)) (λ _ s, (Ok [], s)) None in
  (predict_cancer_risk model [4.2; 7.8]%float names_ab (world0 ∅)).1
  = Raise (mkExc IndexError "index 0 is out of bounds for axis 0 with size 0").
Proof.
  cbn zeta.
  rewrite (proj1 (empty_answer_index_error unit
                    (mkClassifier (λ _ s, (Ok [], s)) (λ _ s, (Ok [], s)) None)
                    [4.2; 7.8]%float names_ab (world0 ∅) eq_refl)
             () eq_refl).
  reflexivity.
Defined.

(** Two names that are no strings do as well as "a" and "b". *)
Lemma names_matter_by_length_witness :
  predict_cancer_risk stub_classifier [4.2; 7.8]%float names_ab (world0 ∅)
  = predict_cancer_risk stub_classifier [4.2; 7.8]%float [ONone; ONone]
      (world0 ∅).
Proof.
  exact (names_matter_by_length unit stub_classifier [4.2; 7.8]%float names_ab
           [ONone; ONone] (world0 ∅) eq_refl).
Defined.

(** Every rule of the counter fires: the result is "High", with all five
    recommendations. *)
Lemma recommendations_follow_risk_witness :
  let a := mkAnswers 60 "Yes - Multiple family members" "Rarely" "Poor"
                     "Yes - Abnormal" "No" in
  (3 ≤ length (recommendations a))%nat ∧ recommendations a ≠ [].
Proof.
  pose proof (recommendations_follow_risk
                (mkAnswers 60 "Yes - Multiple family members" "Rarely" "Poor"
                           "Yes - Abnormal" "No")) as (_ & Hsome & Hthree).
  split; [exact (Hthree eq_refl) | apply Hsome; discriminate].
Defined.

(** A mother with breast cancer and a benign biopsy, at 45. *)
Lemma risk_factors_on_form_witness :
  risk_factors (mkAnswers 45 "Yes - Mother" "1-2 times/week" "Good"
                          "Yes - Benign" "Sometimes") = 2%Z.
Proof.
  rewrite (risk_factors_on_form
             (mkAnswers 45 "Yes - Mother" "1-2 times/week" "Good"
                        "Yes - Benign" "Sometimes")).
  - reflexivity.
  - unfold from_form. cbn. repeat split; try lia; set_solver.
Defined.

(** A sidebar that fails on its logo, and a sidebar that stops the script. *)
Lemma main_catches_exceptions_witness :
  let missing := mkExc (OtherError "MediaFileStorageError")
                       "Error opening 'assets/logo.png'" in
  let stop := mkExc SystemExit "" in
  main_application_logic (raise missing) (ret ()) (ret ()) (ret ()) (ret ())
    (world0 ∅)
  = (Ok (), with_page (world0 ∅)
              [StError "An error occurred: Error opening 'assets/logo.png'";
               StInfo "Please refresh the page and try again."]) ∧
  main_application_logic (raise stop) (ret ()) (ret ()) (ret ()) (ret ())
    (world0 ∅)
  = (Raise stop, world0 ∅).
Proof.
  split.
  - exact (proj2 (main_catches_exceptions unit
                    (raise (mkExc (OtherError "MediaFileStorageError")
                                  "Error opening 'assets/logo.png'"))
                    (ret ()) (ret ()) (ret ()) (ret ()) (world0 ∅))
             _ _ eq_refl).
  - exact (proj2 (main_catches_exceptions unit
                    (raise (mkExc SystemExit ""))
                    (ret ()) (ret ()) (ret ()) (ret ()) (world0 ∅))
             _ _ eq_refl).
Defined.

(** The second option is selected and its page fails. *)
Lemma selected_page_is_shown_witness :
  let e := mkExc ValueError "assessment" in
  main_application_logic (ret "Risk Assessment") (ret ()) (raise e) (ret ())
    (ret ()) (world0 ∅)
  = (Ok (), with_page (world0 ∅)
              [StError "An error occurred: assessment";
               StInfo "Please refresh the page and try again."]).
Proof.
  exact (proj1 (selected_page_is_shown unit (ret "Risk Assessment") (ret ())
                  (raise (mkExc ValueError "assessment")) (ret ()) (ret ())
                  (world0 ∅) "Risk Assessment" (world0 ∅) eq_refl)
           1 (raise (mkExc ValueError "assessment")) eq_refl eq_refl).
Defined.
